(** * scan_services: a shallow embedding of library/scan_services.py

    The Ansible module inventories host services through three code paths:
    [ServiceScanService.gather_services] (sysvinit, Upstart or chkconfig),
    [SystemctlScanService.gather_services] (systemd), and [main], which
    merges the two maps and builds the module result.

    The host is modelled by the answers of the Ansible primitives the code
    calls: [get_bin_path] per binary, the content of /proc/1/comm, and
    [run_command] as a function from the command string to
    (rc, stdout, stderr).  Every [run_command] call is logged together with
    the line of the source it comes from, so that claims about which
    commands the module issues can be stated.  Strings are ASCII. *)

From Stdlib Require Import ZArith Ascii String List Bool.
From stdpp Require Import gmap strings list fin_maps.
Import ListNotations.

Local Open Scope string_scope.

(* ================================================================== *)
(** ** Python string primitives *)

Module Py.

(** Characters of Python's [str.isspace] / regex [\s] in the ASCII range:
    \t \n \v \f \r, the separators \x1c-\x1f and the space. *)
Definition is_space (c : ascii) : bool :=
  let n := nat_of_ascii c in
  (((9 <=? n) && (n <=? 13)) || ((28 <=? n) && (n <=? 32)))%nat.

Definition is_digit (c : ascii) : bool :=
  let n := nat_of_ascii c in ((48 <=? n) && (n <=? 57))%nat.

(** regex [\w]: letters, digits and the underscore. *)
Definition is_word (c : ascii) : bool :=
  let n := nat_of_ascii c in
  (is_digit c || ((65 <=? n) && (n <=? 90)) || ((97 <=? n) && (n <=? 122))
   || (n =? 95))%nat.

(** regex [.]: anything but a newline. *)
Definition is_not_nl (c : ascii) : bool := negb (Ascii.eqb c "010"%char).

(** [s.split()]: runs of whitespace separate the tokens, empty tokens are
    dropped. *)
Fixpoint split_ws_aux (cur : list ascii) (s : string) : list string :=
  match s with
  | EmptyString =>
      match cur with [] => [] | _ => [string_of_list_ascii (rev cur)] end
  | String c t =>
      if is_space c then
        match cur with
        | [] => split_ws_aux [] t
        | _ => string_of_list_ascii (rev cur) :: split_ws_aux [] t
        end
      else split_ws_aux (c :: cur) t
  end.

Definition split_ws (s : string) : list string := split_ws_aux [] s.

(** [s.split(sep)] for a one-character separator: empty pieces are kept. *)
Fixpoint split_on_aux (sep : ascii) (cur : list ascii) (s : string) : list string :=
  match s with
  | EmptyString => [string_of_list_ascii (rev cur)]
  | String c t =>
      if Ascii.eqb c sep then string_of_list_ascii (rev cur) :: split_on_aux sep [] t
      else split_on_aux sep (c :: cur) t
  end.

Definition nl : ascii := "010"%char.
Definition cr : ascii := "013"%char.
Definition dquote : string := String "034"%char EmptyString.

(** [s.split("\n")] *)
Definition split_nl (s : string) : list string := split_on_aux nl [] s.

(** [sep.join(l)] *)
Fixpoint join (sep : string) (l : list string) : string :=
  match l with
  | [] => ""
  | [x] => x
  | x :: t => x ++ sep ++ join sep t
  end.

(** [s.replace(c, "")] for a one-character [c]. *)
Fixpoint remove_char (c : ascii) (s : string) : string :=
  match s with
  | EmptyString => EmptyString
  | String d t => if Ascii.eqb c d then remove_char c t else String d (remove_char c t)
  end.

(** [needle in hay] *)
Fixpoint contains (needle hay : string) : bool :=
  String.prefix needle hay ||
  match hay with EmptyString => false | String _ t => contains needle t end.

(** [s.lower()] on ASCII. *)
Definition lower_char (c : ascii) : ascii :=
  let n := nat_of_ascii c in
  if ((65 <=? n) && (n <=? 90))%nat then ascii_of_nat (n + 32) else c.

Fixpoint lower (s : string) : string :=
  match s with
  | EmptyString => EmptyString
  | String c t => String (lower_char c) (lower t)
  end.

End Py.

(* ================================================================== *)
(** ** Python's [re]: a backtracking matcher with named groups

    [mt r s e k] tries [r] on the remaining input [s] with the captures
    [e] and passes each way of matching, in Python's preference order, to
    the continuation [k]; the first success wins, as in [re]'s backtracking
    engine.  [RStar true] is the greedy [*], [RStar false] the lazy [*?].
    An iteration of a star that consumes nothing is refused (the bodies of
    the stars of this module always consume a character). *)

Module Re.

Inductive rx :=
| RChr (c : ascii)
| RCls (f : ascii -> bool)
| RSeq (a b : rx)
| RAlt (a b : rx)
| RStar (greedy : bool) (a : rx)
| RGrp (n : string) (a : rx)
| REps
| REnd.

Definition env := list (string * string).

Fixpoint mt (r : rx) (s : list ascii) (e : env)
    (k : list ascii -> env -> option env) {struct r} : option env :=
  match r with
  | RChr c => match s with x :: s' => if Ascii.eqb x c then k s' e else None | [] => None end
  | RCls f => match s with x :: s' => if f x then k s' e else None | [] => None end
  | RSeq a b => mt a s e (fun s1 e1 => mt b s1 e1 k)
  | RAlt a b => match mt a s e k with Some x => Some x | None => mt b s e k end
  | RStar g a =>
      (fix loop (n : nat) (s : list ascii) (e : env) {struct n} : option env :=
         match n with
         | O => None
         | S n' =>
             if g then
               match mt a s e (fun s1 e1 =>
                        if (length s1 <? length s)%nat then loop n' s1 e1 else None) with
               | Some x => Some x
               | None => k s e
               end
             else
               match k s e with
               | Some x => Some x
               | None => mt a s e (fun s1 e1 =>
                           if (length s1 <? length s)%nat then loop n' s1 e1 else None)
               end
         end) (S (length s)) s e
  | RGrp n a =>
      mt a s e (fun s1 e1 =>
        k s1 ((n, string_of_list_ascii (firstn (length s - length s1) s)) :: e1))
  | REps => k s e
  | REnd =>
      (* [$]: the end of the string, or just before a final newline *)
      match s with
      | [] => k s e
      | [c] => if Ascii.eqb c Py.nl then k s e else None
      | _ => None
      end
  end.

(** [pattern.match(s)]: a match anchored at the start of [s]; the result
    is the list of captures, the most recent first. *)
Definition rmatch (r : rx) (s : string) : option env :=
  mt r (list_ascii_of_string s) [] (fun _ e => Some e).

(** [m[name]]: the last capture of the group, [None] when it did not take
    part in the match. *)
Fixpoint group (e : env) (n : string) : option string :=
  match e with
  | [] => None
  | (n', v) :: t => if String.eqb n n' then Some v else group t n
  end.

Definition plus (a : rx) : rx := RSeq a (RStar true a).
Definition opt (a : rx) : rx := RAlt a REps.

Fixpoint lit (s : string) : rx :=
  match s with
  | EmptyString => REps
  | String c t => RSeq (RChr c) (lit t)
  end.

Fixpoint seqs (l : list rx) : rx :=
  match l with
  | [] => REps
  | [a] => a
  | a :: t => RSeq a (seqs t)
  end.

Definition ws : rx := RCls Py.is_space.
Definition word : rx := RCls Py.is_word.
Definition digit : rx := RCls Py.is_digit.
Definition dot : rx := RCls Py.is_not_nl.

End Re.

(* ================================================================== *)
(** ** Data model *)

Module Scan.
Import Re.

(** A service state: the strings "running"/"stopped" (or the Upstart
    state), or the raw exit code the chkconfig path assigns first. *)
Inductive sval := SStr (s : string) | SInt (z : Z).

(** A service dict; [goal] and [pid] are [None] when the key is absent. *)
Record svc_rec := mk_rec {
  name : string;
  state : sval;
  source : string;
  goal : option string;
  pid : option string
}.

Global Instance sval_eq_dec : EqDecision sval.
Proof. solve_decision. Defined.

Global Instance svc_rec_eq_dec : EqDecision svc_rec.
Proof.
  intros [n1 s1 o1 g1 p1] [n2 s2 o2 g2 p2].
  destruct (decide (n1 = n2)), (decide (s1 = s2)), (decide (o1 = o2)),
    (decide (g1 = g2)), (decide (p1 = p2)); subst;
    first [left; reflexivity | right; congruence].
Defined.

(** Where a [run_command] call sits in the source (by line). *)
Inductive site :=
| SSysv          (* line 58 *)
| SInitctl       (* line 70 *)
| SChkBase       (* line 88 *)
| SChkAll        (* line 105 *)
| SChkList       (* line 111 *)
| SChkProbe      (* line 120 *)
| SSystemctl.    (* line 156 *)

(** The host, as seen through the Ansible primitives. *)
Record host := mk_host {
  bin_service : option string;     (* get_bin_path("service") *)
  bin_initctl : option string;     (* get_bin_path("initctl") *)
  bin_chkconfig : option string;   (* get_bin_path("chkconfig") *)
  bin_systemctl : option string;   (* get_bin_path("systemctl", opt_dirs=...) *)
  proc1_comm : option string;      (* /proc/1/comm; None: IOError *)
  run : string -> Z * string * string  (* run_command: (rc, stdout, stderr) *)
}.

(** Computations that call [run_command]: a value and the calls made. *)
Definition M (A : Type) : Type := A * list (site * string).

Definition ret {A} (a : A) : M A := (a, []).
Definition bind {A B} (m : M A) (f : A -> M B) : M B :=
  let '(a, l1) := m in let '(b, l2) := f a in (b, app l1 l2).

Notation "x <- m ;; k" := (bind m (fun x => k))
  (at level 100, m at next level, right associativity).

Definition run_command (h : host) (st : site) (cmd : string) : M (Z * string * string) :=
  (run h cmd, [(st, cmd)]).

(** The result of [main]: [exit_json(skipped=True, msg=...)] or
    [exit_json(ansible_facts={services: ...}, msg=...)]. *)
Inductive report :=
| Skipped (msg : string)
| Success (services : gmap string svc_rec) (msg : option string).

(* ================================================================== *)
(** ** ServiceScanService.gather_services *)

(** sysvinit, lines 58-65 *)
Definition sysv_cmd (sp : string) : string :=
  sp ++ " --status-all 2>&1 | grep -E " ++ Py.dquote ++ "\[ (\+|\-) \]" ++ Py.dquote.

(** The body of the loop of lines 59-65 for one line: the key and the dict
    stored, or [None] for [continue]. *)
Definition sysv_line (line : string) : option (string * svc_rec) :=
  let line_data := Py.split_ws line in
  if (length line_data <? 4)%nat then None
  else
    let service_name := Py.join " " (skipn 3 line_data) in
    let service_state :=
      if String.eqb (nth 1 line_data "") "+" then "running" else "stopped" in
    Some (service_name, mk_rec service_name (SStr service_state) "sysv" None None).

(** [services[k] = v] for every non-skipped line, in order. *)
Definition store_lines (f : string -> option (string * svc_rec))
    (lines : list string) (services : gmap string svc_rec) : gmap string svc_rec :=
  fold_left (fun acc line =>
    match f line with Some (k, v) => <[k := v]> acc | None => acc end) lines services.

Definition sysv_scan (h : host) (sp : string) (services : gmap string svc_rec)
    : M (gmap string svc_rec) :=
  r <- run_command h SSysv (sysv_cmd sp) ;;
  let '(rc, stdout, stderr) := r in
  ret (store_lines sysv_line (Py.split_nl stdout) services).

(** Upstart, lines 68-81.  The pattern of line 69, written with [.STAR]
    for a star followed by a closing parenthesis:
    [^\s?(?P<name>.STAR)\s(?P<goal>\w+)\/(?P<state>\w+)(\,\sprocess\s(?P<pid>[0-9]+))?\s*$]
    ([^] always holds at the start of [match]). *)
Definition upstart_re : rx :=
  seqs [opt ws; RGrp "name" (RStar true dot); ws; RGrp "goal" (plus word);
        RChr "/"; RGrp "state" (plus word);
        opt (seqs [RChr ","; ws; lit "process"; ws; RGrp "pid" (plus digit)]);
        RStar true ws; REnd].

Definition grp (m : env) (n : string) : string :=
  match group m n with Some v => v | None => "" end.

Definition upstart_line (line : string) : option (string * svc_rec) :=
  match rmatch upstart_re line with
  | None => None
  | Some m =>
      let service_name := grp m "name" in
      let service_goal := grp m "goal" in
      let service_state := grp m "state" in
      let pid := group m "pid" in
      let payload := mk_rec service_name (SStr service_state) "upstart"
                       (Some service_goal) None in
      Some (service_name, payload)
  end.

Definition upstart_scan (h : host) (ip : string) (services : gmap string svc_rec)
    : M (gmap string svc_rec) :=
  r <- run_command h SInitctl (ip ++ " list") ;;
  let '(rc, stdout, stderr) := r in
  let real_stdout := Py.remove_char Py.cr stdout in
  ret (store_lines upstart_line (Py.split_nl real_stdout) services).

(** chkconfig, lines 83-134.  The primary pattern of lines 85-87:
    [(?P<service>.*?)\s+[0-9]:(?P<rl0>on|off)\s+ ... [0-9]:(?P<rl6>on|off)]. *)
Definition onoff : rx := RAlt (lit "on") (lit "off").

Definition runlevel (n : string) : rx :=
  seqs [plus ws; digit; RChr ":"; RGrp n onoff].

Definition chk_re : rx :=
  seqs [RGrp "service" (RStar false dot);
        runlevel "rl0"; runlevel "rl1"; runlevel "rl2"; runlevel "rl3";
        runlevel "rl4"; runlevel "rl5"; runlevel "rl6"].

(** The simplified pattern of line 98: [(?P<service>.*?)\s+(?P<rl0>on|off)]. *)
Definition chk_simple_re : rx :=
  seqs [RGrp "service" (RStar false dot); plus ws; RGrp "rl0" onoff].

Definition match_any (r : rx) (stdout : string) : bool :=
  existsb (fun line => if rmatch r line then true else false) (Py.split_nl stdout).

(** Lines 88-113: the listing and its fallbacks; the stdout parsed next. *)
Definition chk_listing (h : host) (cp : string) : M string :=
  r <- run_command h SChkBase cp ;;
  let '(rc, stdout, stderr) := r in
  if match_any chk_re stdout then ret stdout
  else if match_any chk_simple_re stdout then
    r' <- run_command h SChkAll (cp ++ " -l --allservices") ;;
    let '(rc', stdout', stderr') := r' in ret stdout'
  else if Py.contains "--list" stderr then
    r' <- run_command h SChkList (cp ++ " --list") ;;
    let '(rc', stdout', stderr') := r' in ret stdout'
  else ret stdout.

(** The test of line 128. *)
Definition permission_denied (stderr : string) : bool :=
  Py.contains "root" stderr || Py.contains "permission" (Py.lower stderr)
  || Py.contains "not in sudoers" (Py.lower stderr).

Definition probe_cmd (sp service_name : string) : string :=
  sp ++ " " ++ service_name ++ " status".

(** The loop of lines 115-134 over the listing lines, threading the
    services dict and [self.incomplete_warning]. *)
Fixpoint chk_loop (h : host) (sp : string) (lines : list string)
    (services : gmap string svc_rec) (incomplete : bool)
    : M (gmap string svc_rec * bool) :=
  match lines with
  | [] => ret (services, incomplete)
  | line :: rest =>
      match rmatch chk_re line with
      | None => chk_loop h sp rest services incomplete
      | Some m =>
          let service_name := grp m "service" in
          let store st :=
            chk_loop h sp rest
              (<[service_name := mk_rec service_name st "sysv" None None]> services)
              incomplete in
          if String.eqb (grp m "rl3") "on" then
            r <- run_command h SChkProbe (probe_cmd sp service_name) ;;
            let '(rc, stdout, stderr) := r in
            let service_state := SInt rc in
            match service_state with
            | SInt Z0 => store (SStr "running")
            | _ =>
                if permission_denied stderr then
                  chk_loop h sp rest services true          (* continue *)
                else store (SStr "stopped")
            end
          else store (SStr "stopped")
      end
  end.

(** [ServiceScanService.gather_services]: the dict and the final
    [self.incomplete_warning], or [None]. *)
Definition gather_services_sysv (h : host) : M (option (gmap string svc_rec * bool)) :=
  match bin_service h with
  | None => ret None
  | Some sp =>
      let initctl_path := bin_initctl h in
      let chkconfig_path := bin_chkconfig h in
      services <- (match chkconfig_path with
                   | None => sysv_scan h sp ∅
                   | Some _ => ret ∅
                   end) ;;
      match initctl_path, chkconfig_path with
      | Some ip, None =>
          services' <- upstart_scan h ip services ;;
          ret (Some (services', false))
      | _, Some cp =>
          stdout <- chk_listing h cp ;;
          res <- chk_loop h sp (Py.split_nl stdout) services false ;;
          ret (Some res)
      | None, None => ret (Some (services, false))
      end
  end.

(* ================================================================== *)
(** ** SystemctlScanService.gather_services *)

(** [systemd_enabled]: some line of /proc/1/comm contains "systemd". *)
Definition systemd_enabled (h : host) : bool :=
  match proc1_comm h with
  | None => false
  | Some content => existsb (Py.contains "systemd") (Py.split_nl content)
  end.

Definition systemd_cmd (p : string) : string :=
  p ++ " list-unit-files --type=service | tail -n +2 | head -n -2".

(** The body of the loop of lines 161-166 for one line. *)
Definition systemd_line (line : string) : option (string * svc_rec) :=
  let line_data := Py.split_ws line in
  if negb (length line_data =? 2)%nat then None
  else
    let n0 := nth 0 line_data "" in
    let state_val := if String.eqb (nth 1 line_data "") "enabled" then "running" else "stopped" in
    Some (n0, mk_rec n0 (SStr state_val) "systemd" None None).

Definition gather_services_systemd (h : host) : M (option (gmap string svc_rec * bool)) :=
  if negb (systemd_enabled h) then ret None
  else match bin_systemctl h with
  | None => ret None
  | Some p =>
      r <- run_command h SSystemctl (systemd_cmd p) ;;
      let '(rc, stdout, stderr) := r in
      ret (Some (store_lines systemd_line (Py.split_nl stdout) ∅, false))
  end.

(* ================================================================== *)
(** ** main *)

Definition skipped_msg : string :=
  "Failed to find any services. Sometimes this is due to insufficient privileges.".
Definition warning_msg : string :=
  "WARNING: Could not find status for all services. Sometimes this is due to insufficient privileges.".

(** One iteration of the loop of lines 175-181: [all_services |= svc]
    (the right operand wins, i.e. stdpp's left-biased [svc ∪ all]). *)
Definition merge_step (acc : gmap string svc_rec * bool)
    (o : option (gmap string svc_rec * bool)) : gmap string svc_rec * bool :=
  match o with
  | None => acc
  | Some (svc, w) => (svc ∪ acc.1, acc.2 || w)
  end.

Definition finish (acc : gmap string svc_rec * bool) : report :=
  let '(all_services, incomplete_warning) := acc in
  if decide (all_services = ∅) then Skipped skipped_msg
  else Success all_services (if incomplete_warning then Some warning_msg else None).

Definition main (h : host) : M report :=
  o1 <- gather_services_sysv h ;;
  o2 <- gather_services_systemd h ;;
  ret (finish (fold_left merge_step [o1; o2] (∅, false))).

End Scan.

(* ================================================================== *)
(** ** Concrete hosts *)

Module Hosts.
Import Scan.

Definition line_of (l : list string) : string := Py.join (String Py.nl EmptyString) l.

Definition chk_foo : string :=
  "foo            0:off   1:off   2:on    3:on    4:on    5:on    6:off".
Definition chk_bar : string :=
  "bar            0:off   1:off   2:on    3:on    4:on    5:on    6:off".

(** sysvinit reports "foo" running; systemd reports "foo" disabled. *)
Definition h_both : host := {|
  bin_service := Some "/usr/sbin/service"; bin_initctl := None; bin_chkconfig := None;
  bin_systemctl := Some "/usr/bin/systemctl"; proc1_comm := Some "systemd";
  run := fun c =>
    if String.eqb c (sysv_cmd "/usr/sbin/service") then (0%Z, " [ + ]  foo", "")
    else if String.eqb c (systemd_cmd "/usr/bin/systemctl") then (0%Z, "foo disabled", "")
    else (127%Z, "", "") |}.

Definition foo_sysv : svc_rec := mk_rec "foo" (SStr "running") "sysv" None None.
Definition foo_systemd : svc_rec := mk_rec "foo" (SStr "stopped") "systemd" None None.
Definition m_sysv : gmap string svc_rec := {["foo" := foo_sysv]}.
Definition m_systemd : gmap string svc_rec := {["foo" := foo_systemd]}.

(** initctl without a service binary. *)
Definition h_upstart_only : host := {|
  bin_service := None; bin_initctl := Some "/sbin/initctl"; bin_chkconfig := None;
  bin_systemctl := None; proc1_comm := None;
  run := fun c => (0%Z, "ssh start/running, process 1234", "") |}.

(** chkconfig lists "foo" and "bar"; probing "foo" is refused by sudo. *)
Definition h_chk (listing : list string) : host := {|
  bin_service := Some "service"; bin_initctl := None; bin_chkconfig := Some "chkconfig";
  bin_systemctl := None; proc1_comm := None;
  run := fun c =>
    if String.eqb c "chkconfig" then (0%Z, line_of listing, "")
    else if String.eqb c (probe_cmd "service" "foo") then (1%Z, "", "sudo: user is not in sudoers")
    else if String.eqb c (probe_cmd "service" "bar") then (0%Z, "bar is running", "")
    else (127%Z, "", "") |}.

(** chkconfig prints the two-column listing unless called with
    "-l --allservices". *)
Definition h_sles : host := {|
  bin_service := Some "service"; bin_initctl := None; bin_chkconfig := Some "chkconfig";
  bin_systemctl := None; proc1_comm := None;
  run := fun c =>
    if String.eqb c "chkconfig" then (0%Z, "bar  on", "")
    else if String.eqb c "chkconfig -l --allservices" then (0%Z, chk_bar, "")
    else if String.eqb c (probe_cmd "service" "bar") then (0%Z, "", "")
    else (127%Z, "", "") |}.

(** sysvinit lists "ssh" stopped; Upstart lists it running. *)
Definition h_sysv_upstart : host := {|
  bin_service := Some "service"; bin_initctl := Some "initctl"; bin_chkconfig := None;
  bin_systemctl := None; proc1_comm := None;
  run := fun c =>
    if String.eqb c (sysv_cmd "service") then (0%Z, " [ - ]  ssh", "")
    else if String.eqb c "initctl list" then (0%Z, "ssh start/running, process 1234", "")
    else (127%Z, "", "") |}.

Definition chk_qux : string :=
  "qux            0:off   1:off   2:on    3:on    4:on    5:on    6:off".
Definition chk_baz : string :=
  "baz            0:off   1:off   2:off   3:off   4:off   5:off   6:off".

End Hosts.

(* ================================================================== *)
(** ** Facts about the model *)

Module Facts.
Import Re Scan.

(** The services map of an outcome; [None] contributes nothing. *)
Definition opt_map (o : option (gmap string svc_rec * bool)) : gmap string svc_rec :=
  match o with Some p => p.1 | None => ∅ end.

Definition opt_flag (o : option (gmap string svc_rec * bool)) : bool :=
  match o with Some p => p.2 | None => false end.

Definition services_of (r : report) : gmap string svc_rec :=
  match r with Success m _ => m | Skipped _ => ∅ end.

(** The key-record coherence of a services map. *)
Definition coherent (m : gmap string svc_rec) : Prop :=
  map_Forall (fun k r => name r = k /\
    (source r = "sysv" \/ source r = "upstart" \/ source r = "systemd")) m.

Definition chk_state_ok (m : gmap string svc_rec) : Prop :=
  map_Forall (fun _ r => state r = SStr "running" \/ state r = SStr "stopped") m.

(** Some call of [gather_services_sysv] was made from source site [st]. *)
Definition ran (h : host) (st : site) : Prop :=
  exists c, In (st, c) (gather_services_sysv h).2.

(** The listing line names service [s] (primary pattern). *)
Definition names_b (s line : string) : bool :=
  match rmatch chk_re line with
  | Some e => String.eqb (grp e "service") s
  | None => false
  end.

(** If the listing line names [s], its runlevel 3 is "on". *)
Definition rl3_on_for (s line : string) : bool :=
  match rmatch chk_re line with
  | Some e => negb (String.eqb (grp e "service") s) || String.eqb (grp e "rl3") "on"
  | None => true
  end.

Definition chk_lines (h : host) (cp : string) : list string :=
  Py.split_nl (chk_listing h cp).1.

Definition rr (s : string) : svc_rec := mk_rec s (SStr "running") "sysv" None None.

Definition rs (s : string) : svc_rec := mk_rec s (SStr "stopped") "sysv" None None.

(** If the listing line names [s], it leads to "stopped": runlevel 3 is
    off, or the probe of [s] fails without a permission message. *)
Definition stops_for (h : host) (sp s line : string) : bool :=
  match rmatch chk_re line with
  | Some e =>
      negb (String.eqb (grp e "service") s) || negb (String.eqb (grp e "rl3") "on") ||
      (let '(rc, _, err) := run h (probe_cmd sp s) in
       negb (Z.eqb rc 0) && negb (permission_denied err))
  | None => true
  end.

(** The listing line fits the primary pattern. *)
Definition fits (line : string) : bool := if rmatch chk_re line then true else false.

#[local] Arguments bind {A B} m f : simpl never.

Lemma bind_fst {A B} (m : M A) (f : A -> M B) : (bind m f).1 = (f m.1).1.
Proof. destruct m as [a l1]; unfold bind; cbn. destruct (f a); reflexivity. Qed.

Lemma bind_snd {A B} (m : M A) (f : A -> M B) : (bind m f).2 = app m.2 (f m.1).2.
Proof. destruct m as [a l1]; unfold bind; cbn. destruct (f a); reflexivity. Qed.

Lemma store_lines_forall (P : string -> svc_rec -> Prop) f lines m :
  map_Forall P m ->
  (forall line k v, f line = Some (k, v) -> P k v) ->
  map_Forall P (store_lines f lines m).
Proof.
  revert m; induction lines as [|line rest IH]; intros m Hm Hf; cbn; [done|].
  apply IH; [|done].
  destruct (f line) as [[k v]|] eqn:E; [|done].
  apply map_Forall_insert_2; [eapply Hf; eauto|done].
Qed.

Lemma chk_loop_forall (P : string -> svc_rec -> Prop) h sp lines m w :
  (forall n st, st = SStr "running" \/ st = SStr "stopped" ->
     P n (mk_rec n st "sysv" None None)) ->
  map_Forall P m ->
  map_Forall P (chk_loop h sp lines m w).1.1.
Proof.
  intros HP. revert m w; induction lines as [|line rest IH]; intros m w Hm;
    cbn [chk_loop]; [done|].
  destruct (rmatch chk_re line) as [e|]; [|auto].
  destruct (String.eqb (grp e "rl3") "on").
  - rewrite bind_fst; cbn.
    destruct (run h (probe_cmd sp (grp e "service"))) as [[rc o] err]; cbn.
    destruct rc; [| destruct (permission_denied err) ..]; cbn;
      try apply IH; try done; apply map_Forall_insert_2; auto.
  - apply IH, map_Forall_insert_2; auto.
Qed.

Lemma gather_sysv_fst (h : host) :
  (gather_services_sysv h).1 =
  match bin_service h with
  | None => None
  | Some sp =>
      match bin_initctl h, bin_chkconfig h with
      | Some ip, None => Some ((upstart_scan h ip (sysv_scan h sp ∅).1).1, false)
      | _, Some cp => Some (chk_loop h sp (Py.split_nl (chk_listing h cp).1) ∅ false).1
      | None, None => Some ((sysv_scan h sp ∅).1, false)
      end
  end.
Proof.
  unfold gather_services_sysv.
  destruct (bin_service h) as [sp|]; [|reflexivity].
  destruct (bin_initctl h), (bin_chkconfig h); rewrite ?bind_fst; cbn; rewrite ?bind_fst;
    reflexivity.
Qed.

Lemma sysv_scan_fst h sp m :
  (sysv_scan h sp m).1 = store_lines sysv_line (Py.split_nl (run h (sysv_cmd sp)).1.2) m.
Proof.
  unfold sysv_scan; rewrite bind_fst; cbn.
  destruct (run h (sysv_cmd sp)) as [[rc o] e]; reflexivity.
Qed.

Lemma upstart_scan_fst h ip m :
  (upstart_scan h ip m).1 =
  store_lines upstart_line (Py.split_nl (Py.remove_char Py.cr (run h (ip ++ " list")).1.2)) m.
Proof.
  unfold upstart_scan; rewrite bind_fst; cbn.
  destruct (run h (ip ++ " list")) as [[rc o] e]; reflexivity.
Qed.

Lemma gather_systemd_fst (h : host) :
  (gather_services_systemd h).1 =
  if systemd_enabled h then
    match bin_systemctl h with
    | None => None
    | Some p => Some (store_lines systemd_line (Py.split_nl (run h (systemd_cmd p)).1.2) ∅, false)
    end
  else None.
Proof.
  unfold gather_services_systemd.
  destruct (systemd_enabled h); [|reflexivity]; cbn.
  destruct (bin_systemctl h) as [p|]; [|reflexivity].
  rewrite bind_fst; cbn. destruct (run h (systemd_cmd p)) as [[rc o] e]; reflexivity.
Qed.

(** The accumulator after the loop of [main]. *)
Lemma merge_both (o1 o2 : option (gmap string svc_rec * bool)) :
  fold_left merge_step [o1; o2] (∅, false) =
  (opt_map o2 ∪ opt_map o1, opt_flag o1 || opt_flag o2).
Proof.
  destruct o1 as [[m1 w1]|], o2 as [[m2 w2]|]; cbn;
    rewrite ?(right_id_L ∅ (∪)), ?(left_id_L ∅ (∪)), ?orb_false_r; reflexivity.
Qed.

Lemma main_fst (h : host) :
  (main h).1 =
  finish (opt_map (gather_services_systemd h).1 ∪ opt_map (gather_services_sysv h).1,
          opt_flag (gather_services_sysv h).1 || opt_flag (gather_services_systemd h).1).
Proof. unfold main. rewrite !bind_fst. unfold ret; cbn [fst]. rewrite merge_both. reflexivity. Qed.

Lemma main_services (h : host) :
  services_of (main h).1 =
  opt_map (gather_services_systemd h).1 ∪ opt_map (gather_services_sysv h).1.
Proof.
  rewrite main_fst. unfold finish. case_decide as E; [|reflexivity]. cbn. by rewrite E.
Qed.

Lemma sysv_line_coherent line k v :
  sysv_line line = Some (k, v) ->
  name v = k /\ (source v = "sysv" \/ source v = "upstart" \/ source v = "systemd").
Proof.
  unfold sysv_line. destruct (_ <? 4)%nat; [discriminate|]. intros [= <- <-]; cbn; auto.
Qed.

Lemma upstart_line_coherent line k v :
  upstart_line line = Some (k, v) ->
  name v = k /\ (source v = "sysv" \/ source v = "upstart" \/ source v = "systemd").
Proof.
  unfold upstart_line. destruct (rmatch upstart_re line); [|discriminate].
  intros [= <- <-]; cbn; auto.
Qed.

Lemma systemd_line_coherent line k v :
  systemd_line line = Some (k, v) ->
  name v = k /\ (source v = "sysv" \/ source v = "upstart" \/ source v = "systemd").
Proof.
  unfold systemd_line. destruct (negb _); [discriminate|]. intros [= <- <-]; cbn; auto.
Qed.

Lemma gather_sysv_coherent (h : host) : coherent (opt_map (gather_services_sysv h).1).
Proof.
  unfold coherent. rewrite gather_sysv_fst.
  destruct (bin_service h) as [sp|]; [|apply map_Forall_empty].
  destruct (bin_initctl h), (bin_chkconfig h); cbn;
    rewrite ?upstart_scan_fst, ?sysv_scan_fst;
    repeat first
      [ apply chk_loop_forall; [intros n st _; cbn; auto|]
      | apply store_lines_forall; [|eauto using sysv_line_coherent, upstart_line_coherent]
      | apply map_Forall_empty ].
Qed.

Lemma gather_systemd_coherent (h : host) : coherent (opt_map (gather_services_systemd h).1).
Proof.
  unfold coherent. rewrite gather_systemd_fst.
  destruct (systemd_enabled h); [|apply map_Forall_empty].
  destruct (bin_systemctl h); cbn; [|apply map_Forall_empty].
  apply store_lines_forall; [apply map_Forall_empty|eauto using systemd_line_coherent].
Qed.

Lemma union_empty_iff (m1 m2 : gmap string svc_rec) :
  m1 ∪ m2 = ∅ <-> m1 = ∅ /\ m2 = ∅.
Proof.
  split.
  - intros E. split; [by eapply map_positive_l|].
    apply map_empty; intros i. apply (f_equal (.!! i)) in E.
    rewrite lookup_empty, lookup_union_None in E. tauto.
  - intros [-> ->]. apply (left_id_L ∅ (∪)).
Qed.

Lemma chk_gather_map (h : host) (sp cp : string) :
  bin_service h = Some sp -> bin_chkconfig h = Some cp ->
  (gather_services_sysv h).1 = Some (chk_loop h sp (Py.split_nl (chk_listing h cp).1) ∅ false).1.
Proof.
  intros Hs Hc. rewrite gather_sysv_fst, Hs, Hc. by destruct (bin_initctl h).
Qed.

Lemma pair_eq {A B} (p : A * B) a b : p.1 = a -> p.2 = b -> p = (a, b).
Proof. destruct p; cbn; congruence. Qed.

Lemma chk_loop_log h sp lines m w :
  Forall (fun e => e.1 = SChkProbe) (chk_loop h sp lines m w).2.
Proof.
  revert m w; induction lines as [|line rest IH]; intros m w; cbn [chk_loop]; [constructor|].
  destruct (rmatch chk_re line) as [e|]; [|apply IH].
  destruct (String.eqb (grp e "rl3") "on"); [|apply IH].
  rewrite bind_snd. cbn [run_command fst snd].
  destruct (run h (probe_cmd sp (grp e "service"))) as [[rc o] err].
  constructor; [reflexivity|].
  destruct rc; [| destruct (permission_denied err) ..]; apply IH.
Qed.

Lemma chk_listing_log h cp :
  exists rest, (chk_listing h cp).2 = (SChkBase, cp) :: rest /\
    Forall (fun e => e.1 = SChkAll \/ e.1 = SChkList) rest.
Proof.
  unfold chk_listing. rewrite bind_snd. cbn [run_command fst snd].
  destruct (run h cp) as [[rc out] err].
  destruct (match_any chk_re out); [exists []; split; [reflexivity|constructor]|].
  destruct (match_any chk_simple_re out); [|destruct (Py.contains "--list" err)];
    rewrite ?bind_snd; cbn [run_command fst snd];
    repeat match goal with |- context [run h ?c] => destruct (run h c) as [[? ?] ?] end;
    cbn; eexists; (split; [reflexivity|]);
    repeat (apply List.Forall_cons; [cbn; tauto|]); apply List.Forall_nil.
Qed.

Lemma chk_gather (h : host) (sp cp : string) :
  bin_service h = Some sp -> bin_chkconfig h = Some cp ->
  gather_services_sysv h =
  (Some (chk_loop h sp (Py.split_nl (chk_listing h cp).1) ∅ false).1,
   ((chk_listing h cp).2 ++ (chk_loop h sp (Py.split_nl (chk_listing h cp).1) ∅ false).2)%list).
Proof.
  intros Hs Hc. apply pair_eq; [by apply chk_gather_map|].
  unfold gather_services_sysv. rewrite Hs, Hc.
  destruct (bin_initctl h); repeat first [rewrite bind_snd | rewrite bind_fst];
    cbn [ret fst snd]; rewrite ?app_nil_r; reflexivity.
Qed.

Lemma gather_log (h : host) :
  (gather_services_sysv h).2 =
  match bin_service h with
  | None => []
  | Some sp =>
      match bin_initctl h, bin_chkconfig h with
      | Some ip, None => [(SSysv, sysv_cmd sp); (SInitctl, ip ++ " list")]
      | _, Some cp =>
          ((chk_listing h cp).2 ++ (chk_loop h sp (Py.split_nl (chk_listing h cp).1) ∅ false).2)%list
      | None, None => [(SSysv, sysv_cmd sp)]
      end
  end.
Proof.
  destruct (bin_service h) as [sp|] eqn:Hs; [|unfold gather_services_sysv; by rewrite Hs].
  destruct (bin_chkconfig h) as [cp|] eqn:Hc.
  - rewrite (chk_gather h sp cp Hs Hc). by destruct (bin_initctl h).
  - unfold gather_services_sysv. rewrite Hs, Hc.
    destruct (bin_initctl h) as [ip|]; unfold sysv_scan, upstart_scan;
      repeat first [rewrite bind_snd | rewrite bind_fst]; cbn [run_command ret fst snd];
      repeat match goal with |- context [run h ?c] => destruct (run h c) as [[? ?] ?] end;
      cbn; reflexivity.
Qed.

(** The case analysis of one matched line of [chk_loop]. *)
Ltac chk_cases e :=
  destruct (String.eqb (grp e "rl3") "on");
  [ rewrite bind_fst; cbn [run_command fst];
    let rc := fresh "rc" in let err := fresh "err" in
    destruct (run _ (probe_cmd _ (grp e "service"))) as [[rc ?] err]; cbn;
    destruct rc; [| destruct (permission_denied err) ..]
  | ].

Lemma chk_loop_flag_true h sp lines m :
  (chk_loop h sp lines m true).1.2 = true.
Proof.
  revert m; induction lines as [|line rest IH]; intros m; cbn [chk_loop]; [reflexivity|].
  destruct (rmatch chk_re line) as [e|]; [|apply IH].
  cbn zeta. chk_cases e; apply IH.
Qed.

Lemma chk_loop_flag_set h sp lines m w s rc o err :
  existsb (names_b s) lines = true -> forallb (rl3_on_for s) lines = true ->
  run h (probe_cmd sp s) = (rc, o, err) -> rc <> 0%Z -> permission_denied err = true ->
  (chk_loop h sp lines m w).1.2 = true.
Proof.
  intros Hex Hall Hrun Hrc Hperm. revert m w Hex Hall.
  induction lines as [|line rest IH]; intros m w Hex Hall; [discriminate|].
  cbn [existsb forallb] in Hex, Hall. apply andb_prop in Hall as [H1 Hall].
  unfold names_b at 1 in Hex. unfold rl3_on_for in H1. cbn [chk_loop].
  destruct (rmatch chk_re line) as [e|]; [|apply IH; auto].
  cbn zeta. destruct (String.eqb_spec (grp e "service") s) as [Hn|Hn].
  - cbn [negb orb] in H1. rewrite H1.
    rewrite bind_fst. cbn [run_command fst]. rewrite Hn, Hrun. cbn.
    destruct rc; [congruence| |]; rewrite Hperm; apply chk_loop_flag_true.
  - cbn [orb] in Hex. chk_cases e; apply IH; auto.
Qed.

Lemma chk_loop_absent h sp lines m w s rc o err :
  forallb (rl3_on_for s) lines = true ->
  run h (probe_cmd sp s) = (rc, o, err) -> rc <> 0%Z -> permission_denied err = true ->
  m !! s = None -> (chk_loop h sp lines m w).1.1 !! s = None.
Proof.
  intros Hall Hrun Hrc Hperm. revert m w Hall.
  induction lines as [|line rest IH]; intros m w Hall Hm; cbn [chk_loop]; [exact Hm|].
  cbn [forallb] in Hall. apply andb_prop in Hall as [H1 Hall].
  unfold rl3_on_for in H1.
  destruct (rmatch chk_re line) as [e|]; [|apply IH; auto].
  cbn zeta. destruct (String.eqb_spec (grp e "service") s) as [Hn|Hn].
  - cbn [negb orb] in H1. rewrite H1.
    rewrite bind_fst. cbn [run_command fst]. rewrite Hn, Hrun. cbn.
    destruct rc; [congruence| |]; rewrite Hperm; apply IH; auto.
  - chk_cases e; apply IH; auto; rewrite lookup_insert_ne; auto.
Qed.

Lemma chk_loop_running h sp lines m w s o err :
  forallb (rl3_on_for s) lines = true ->
  run h (probe_cmd sp s) = (0%Z, o, err) ->
  existsb (names_b s) lines = true \/ m !! s = Some (rr s) ->
  (chk_loop h sp lines m w).1.1 !! s = Some (rr s).
Proof.
  intros Hall Hrun. revert m w Hall.
  induction lines as [|line rest IH]; intros m w Hall Hm; cbn [chk_loop].
  { destruct Hm as [Hm|Hm]; [discriminate|exact Hm]. }
  cbn [existsb forallb] in Hm, Hall. apply andb_prop in Hall as [H1 Hall].
  unfold names_b at 1 in Hm. unfold rl3_on_for in H1.
  destruct (rmatch chk_re line) as [e|]; [|apply IH; auto].
  cbn zeta. destruct (String.eqb_spec (grp e "service") s) as [Hn|Hn].
  - cbn [negb orb] in H1. rewrite H1.
    rewrite bind_fst. cbn [run_command fst]. rewrite Hn, Hrun. cbn.
    apply IH; auto. right. apply lookup_insert_eq.
  - cbn [orb] in Hm. chk_cases e; apply IH; auto;
      (destruct Hm as [Hm|Hm]; [left; exact Hm|right; rewrite ?lookup_insert_ne; auto]).
Qed.

End Facts.

(* ================================================================== *)
(** ** The claims *)

Module Claims.
Import Re Scan Facts.

(** C9: in the map of either scanner and in the final services map, the
    record stored under a key has that key as its "name", and its "source"
    is "sysv", "upstart" or "systemd". *)
Theorem services_coherent (h : host) :
  coherent (opt_map (gather_services_sysv h).1) /\
  coherent (opt_map (gather_services_systemd h).1) /\
  coherent (services_of (main h).1).
Proof.
  split; [apply gather_sysv_coherent|]. split; [apply gather_systemd_coherent|].
  rewrite main_services. apply map_Forall_union_2;
    [apply gather_systemd_coherent|apply gather_sysv_coherent].
Qed.

(** C1: when both scanners report a service, the final map holds the
    systemd scanner's record for it, in full. *)
Theorem systemd_record_wins (h : host) (m1 m2 : gmap string svc_rec) (w1 w2 : bool)
    (k : string) (r1 r2 : svc_rec) :
  (gather_services_sysv h).1 = Some (m1, w1) ->
  (gather_services_systemd h).1 = Some (m2, w2) ->
  m1 !! k = Some r1 -> m2 !! k = Some r2 ->
  exists msg, (main h).1 = Success (m2 ∪ m1) msg /\ (m2 ∪ m1) !! k = Some r2.
Proof.
  intros H1 H2 Hk1 Hk2. rewrite main_fst, H1, H2. cbn. unfold finish.
  assert (Hk : (m2 ∪ m1) !! k = Some r2) by (by apply lookup_union_Some_l).
  case_decide as E.
  - rewrite E, lookup_empty in Hk. discriminate.
  - eexists; split; [reflexivity|exact Hk].
Qed.

(** C2 (code_bug): on the Upstart line "ssh start/running, process 1234"
    the pattern captures pid "1234", yet the record stored has no pid: the
    payload of line 80 leaves out the [pid] computed on line 79. *)
Theorem upstart_pid_dropped :
  option_map (fun m => group m "pid") (rmatch upstart_re "ssh start/running, process 1234")
    = Some (Some "1234") /\
  upstart_line "ssh start/running, process 1234"
    = Some ("ssh", mk_rec "ssh" (SStr "running") "upstart" (Some "start") None).
Proof. split; vm_compute; reflexivity. Qed.

(** C6: [main] always returns a report: [Skipped] with the
    "Failed to find any services" message exactly when the merged map is
    empty, which happens exactly when every scanner is unavailable or
    empty; otherwise [Success] with the merged map, with the warning
    message exactly when some scanner's incomplete flag is set. *)
Theorem report_shape (h : host) :
  let all := opt_map (gather_services_systemd h).1 ∪ opt_map (gather_services_sysv h).1 in
  let inc := opt_flag (gather_services_sysv h).1 || opt_flag (gather_services_systemd h).1 in
  (main h).1 = (if decide (all = ∅) then Skipped skipped_msg
                else Success all (if inc then Some warning_msg else None)) /\
  (all = ∅ <-> opt_map (gather_services_sysv h).1 = ∅ /\
               opt_map (gather_services_systemd h).1 = ∅).
Proof.
  cbn zeta. split; [rewrite main_fst; reflexivity|].
  rewrite union_empty_iff. tauto.
Qed.

(** C7: a sysvinit status line with at least four tokens and marker "+"
    (resp. "-") gives one record, named by the space-join of the tokens
    from the fourth on, with state "running" (resp. "stopped") and source
    "sysv"; a line with fewer than four tokens gives none. *)
Theorem sysv_line_spec (line : string) :
  let toks := Py.split_ws line in
  let nm := Py.join " " (skipn 3 toks) in
  ((4 <= length toks)%nat -> nth 1 toks "" = "+" ->
     sysv_line line = Some (nm, mk_rec nm (SStr "running") "sysv" None None)) /\
  ((4 <= length toks)%nat -> nth 1 toks "" = "-" ->
     sysv_line line = Some (nm, mk_rec nm (SStr "stopped") "sysv" None None)) /\
  ((length toks < 4)%nat -> sysv_line line = None).
Proof.
  cbn zeta. unfold sysv_line.
  split; [|split]; intros Hlen; [intros Hm; rewrite Hm .. |].
  - destruct (Nat.ltb_spec (length (Py.split_ws line)) 4); [lia|reflexivity].
  - destruct (Nat.ltb_spec (length (Py.split_ws line)) 4); [lia|reflexivity].
  - destruct (Nat.ltb_spec (length (Py.split_ws line)) 4); [reflexivity|lia].
Qed.

(** C8: a systemd listing line of exactly two tokens gives one record named
    by the first token, with state "running" if the second is "enabled"
    and "stopped" otherwise, and source "systemd"; any other line gives
    none. *)
Theorem systemd_line_spec (line : string) :
  let toks := Py.split_ws line in
  let n0 := nth 0 toks "" in
  (length toks = 2%nat -> nth 1 toks "" = "enabled" ->
     systemd_line line = Some (n0, mk_rec n0 (SStr "running") "systemd" None None)) /\
  (length toks = 2%nat -> nth 1 toks "" <> "enabled" ->
     systemd_line line = Some (n0, mk_rec n0 (SStr "stopped") "systemd" None None)) /\
  (length toks <> 2%nat -> systemd_line line = None).
Proof.
  cbn zeta. unfold systemd_line.
  split; [|split]; intros Hlen.
  - intros He. rewrite Hlen, He. reflexivity.
  - intros Hne. rewrite Hlen. cbn.
    destruct (String.eqb_spec (nth 1 (Py.split_ws line) "") "enabled"); [congruence|reflexivity].
  - destruct (Nat.eqb_spec (length (Py.split_ws line)) 2); [congruence|reflexivity].
Qed.

(** C10: on a host with chkconfig, every record of
    [ServiceScanService.gather_services] has state "running" or "stopped",
    never the raw exit code. *)
Theorem chk_states (h : host) (cp : string) :
  bin_chkconfig h = Some cp -> chk_state_ok (opt_map (gather_services_sysv h).1).
Proof.
  intros Hc. unfold chk_state_ok. rewrite gather_sysv_fst, Hc.
  destruct (bin_service h) as [sp|]; [|apply map_Forall_empty].
  destruct (bin_initctl h); cbn;
    (apply chk_loop_forall; [intros n st Hst; exact Hst|apply map_Forall_empty]).
Qed.

(** C5: when the primary pattern matches no line of the base listing and
    the two-column pattern matches one, the listing is run once more with
    "-l --allservices" and its stdout is the one parsed (with the primary
    pattern); when neither matches and the base stderr mentions "--list",
    it is run once more with "--list" instead.  No other listing command
    is issued: every later call is a status probe. *)
Theorem chk_fallback (h : host) (sp cp : string) (rc : Z) (out err : string) :
  bin_service h = Some sp -> bin_chkconfig h = Some cp -> run h cp = (rc, out, err) ->
  match_any chk_re out = false ->
  (match_any chk_simple_re out = true ->
     exists l2,
       gather_services_sysv h =
         (Some (chk_loop h sp (Py.split_nl (run h (cp ++ " -l --allservices")).1.2) ∅ false).1,
          app [(SChkBase, cp); (SChkAll, cp ++ " -l --allservices")] l2) /\
       Forall (fun e => e.1 = SChkProbe) l2) /\
  (match_any chk_simple_re out = false -> Py.contains "--list" err = true ->
     exists l2,
       gather_services_sysv h =
         (Some (chk_loop h sp (Py.split_nl (run h (cp ++ " --list")).1.2) ∅ false).1,
          app [(SChkBase, cp); (SChkList, cp ++ " --list")] l2) /\
       Forall (fun e => e.1 = SChkProbe) l2).
Proof.
  intros Hs Hc Hrun Hp. rewrite (chk_gather h sp cp Hs Hc).
  split; [intros Hq | intros Hq Hl].
  - assert (E : chk_listing h cp =
              ((run h (cp ++ " -l --allservices")).1.2,
               [(SChkBase, cp); (SChkAll, cp ++ " -l --allservices")])).
    { unfold chk_listing, bind, run_command. rewrite Hrun.
      cbn -[match_any Py.contains chk_re chk_simple_re]. rewrite Hp, Hq.
      destruct (run h (cp ++ " -l --allservices")) as [[? ?] ?]. reflexivity. }
    rewrite E. cbn [fst snd]. eexists; split; [reflexivity|apply chk_loop_log].
  - assert (E : chk_listing h cp =
              ((run h (cp ++ " --list")).1.2, [(SChkBase, cp); (SChkList, cp ++ " --list")])).
    { unfold chk_listing, bind, run_command. rewrite Hrun.
      cbn -[match_any Py.contains chk_re chk_simple_re]. rewrite Hp, Hq, Hl.
      destruct (run h (cp ++ " --list")) as [[? ?] ?]. reflexivity. }
    rewrite E. cbn [fst snd]. eexists; split; [reflexivity|apply chk_loop_log].
Qed.

Lemma chk_fallback_witness :
  exists l2,
    gather_services_sysv Hosts.h_sles =
      (Some (chk_loop Hosts.h_sles "service"
               (Py.split_nl (run Hosts.h_sles ("chkconfig" ++ " -l --allservices")).1.2) ∅ false).1,
       app [(SChkBase, "chkconfig"); (SChkAll, "chkconfig" ++ " -l --allservices")] l2) /\
    Forall (fun e => e.1 = SChkProbe) l2.
Proof.
  refine (proj1 (chk_fallback Hosts.h_sles "service" "chkconfig" 0%Z "bar  on" ""
                   eq_refl eq_refl _ _) _); vm_compute; reflexivity.
Defined.

(** C3, as the code has it: the Upstart listing runs exactly when the
    service, initctl and no chkconfig binaries are found; the chkconfig
    listing runs exactly when the service and chkconfig binaries are found.
    Without a service binary [ServiceScanService] returns [None] at once. *)
Theorem backend_selection (h : host) :
  (ran h SInitctl <-> bin_service h <> None /\ bin_initctl h <> None /\ bin_chkconfig h = None) /\
  (ran h SChkBase <-> bin_service h <> None /\ bin_chkconfig h <> None).
Proof.
  unfold ran. rewrite gather_log.
  destruct (bin_service h) as [sp|];
    [|split; split; first [intros [H _]; contradiction H; reflexivity | intros [c []]]].
  destruct (bin_chkconfig h) as [cp|] eqn:Hc.
  - destruct (chk_listing_log h cp) as [rest [Hl Hf]].
    assert (Hnot : forall c, ~ In (SInitctl, c)
              ((chk_listing h cp).2 ++ (chk_loop h sp (Py.split_nl (chk_listing h cp).1) ∅ false).2)%list).
    { intros c Hin. apply in_app_or in Hin as [Hin|Hin].
      - rewrite Hl in Hin. destruct Hin as [Hin|Hin]; [discriminate|].
        rewrite List.Forall_forall in Hf. apply Hf in Hin. cbn in Hin. destruct Hin; discriminate.
      - pose proof (chk_loop_log h sp (Py.split_nl (chk_listing h cp).1) ∅ false) as Hp.
        rewrite List.Forall_forall in Hp. apply Hp in Hin. discriminate. }
    destruct (bin_initctl h); (split; split;
      [ intros [c Hin]; exfalso; eapply Hnot; eauto
      | intros (_ & _ & ?); discriminate
      | intros _; split; congruence
      | intros _; exists cp; rewrite Hl; left; reflexivity ]).
  - destruct (bin_initctl h) as [ip|]; split; split.
    + intros _; repeat split; congruence.
    + intros _; exists (ip ++ " list"); right; left; reflexivity.
    + intros [c Hin]; destruct Hin as [Hin|[Hin|[]]]; discriminate.
    + intros [_ []]; reflexivity.
    + intros [c Hin]; destruct Hin as [Hin|[]]; discriminate.
    + intros (_ & [] & _); reflexivity.
    + intros [c Hin]; destruct Hin as [Hin|[]]; discriminate.
    + intros [_ []]; reflexivity.
Qed.

(** C3 as stated fails: with initctl and without chkconfig, Upstart does
    not run when no service binary is found. *)
Lemma backend_selection_counterexample :
  bin_initctl Hosts.h_upstart_only <> None /\ bin_chkconfig Hosts.h_upstart_only = None /\
  ~ ran Hosts.h_upstart_only SInitctl.
Proof.
  split; [discriminate|]. split; [reflexivity|].
  intros [c Hin]. vm_compute in Hin. destruct Hin.
Qed.

(** C4, as the code has it: let [s] be a service of the final chkconfig
    listing whose lines all have runlevel 3 "on" and whose status probe
    exits non-zero with a permission message on stderr.  Then the
    chkconfig scan stores no record for [s] and sets its incomplete flag,
    and [s] is missing from the final map unless systemd reports a unit of
    that name; the report is [Skipped] (no services at all) or carries the
    warning.  The scan goes on: a sibling [s'] listed with runlevel 3 "on"
    whose probe exits 0 is stored as running (and kept in the final map
    unless systemd reports [s'] too), and then the report is a [Success]
    with the warning. *)
Theorem chk_denied_omitted (h : host) (sp cp s : string) (rc : Z) (o err : string) :
  bin_service h = Some sp -> bin_chkconfig h = Some cp ->
  existsb (names_b s) (chk_lines h cp) = true ->
  forallb (rl3_on_for s) (chk_lines h cp) = true ->
  run h (probe_cmd sp s) = (rc, o, err) -> rc <> 0%Z -> permission_denied err = true ->
  (exists m1, (gather_services_sysv h).1 = Some (m1, true) /\ m1 !! s = None) /\
  (opt_map (gather_services_systemd h).1 !! s = None -> services_of (main h).1 !! s = None) /\
  ((main h).1 = Skipped skipped_msg \/ exists all, (main h).1 = Success all (Some warning_msg)) /\
  (forall (s' o' err' : string),
     existsb (names_b s') (chk_lines h cp) = true ->
     forallb (rl3_on_for s') (chk_lines h cp) = true ->
     run h (probe_cmd sp s') = (0%Z, o', err') ->
     opt_map (gather_services_sysv h).1 !! s' = Some (rr s') /\
     (exists all, (main h).1 = Success all (Some warning_msg)) /\
     (opt_map (gather_services_systemd h).1 !! s' = None ->
        services_of (main h).1 !! s' = Some (rr s'))).
Proof.
  intros Hs Hc Hex Hall Hrun Hrc Hperm.
  pose proof (chk_gather_map h sp cp Hs Hc) as Hg. unfold chk_lines in *.
  pose proof (chk_loop_flag_set h sp (Py.split_nl (chk_listing h cp).1) ∅ false s rc o err
                Hex Hall Hrun Hrc Hperm) as Hw.
  pose proof (chk_loop_absent h sp (Py.split_nl (chk_listing h cp).1) ∅ false s rc o err
                Hall Hrun Hrc Hperm (lookup_empty s)) as Hn.
  destruct (chk_loop h sp (Py.split_nl (chk_listing h cp).1) ∅ false).1 as [m1 w1] eqn:Hl.
  cbn in Hw, Hn. subst w1.
  assert (Hrep : (main h).1 =
            finish (opt_map (gather_services_systemd h).1 ∪ m1, true)).
  { rewrite main_fst, Hg. reflexivity. }
  split; [exists m1; split; [exact Hg|exact Hn]|].
  split.
  { intros H2. rewrite main_services, Hg. cbn. by apply lookup_union_None_2. }
  split.
  { rewrite Hrep. unfold finish. case_decide; [left|right; eexists]; reflexivity. }
  intros s' o' err' Hex' Hall' Hrun'.
  pose proof (chk_loop_running h sp (Py.split_nl (chk_listing h cp).1) ∅ false s' o' err'
                Hall' Hrun' (or_introl Hex')) as Hr.
  rewrite Hl in Hr. cbn in Hr.
  rewrite Hg. cbn [opt_map fst]. split; [exact Hr|]. split.
  - rewrite Hrep. unfold finish. case_decide as E; [|eexists; reflexivity].
    exfalso. pose proof (lookup_union_is_Some (opt_map (gather_services_systemd h).1) m1 s') as [_ Hi].
    rewrite E, lookup_empty in Hi. destruct Hi as [? Hi]; [right; eexists; exact Hr|discriminate].
  - intros H2. rewrite main_services, Hg. cbn. by rewrite lookup_union_r.
Qed.

Lemma chk_denied_omitted_witness :
  (exists m1, (gather_services_sysv (Hosts.h_chk [Hosts.chk_foo; Hosts.chk_bar])).1
                = Some (m1, true) /\ m1 !! "foo" = None) /\
  opt_map (gather_services_sysv (Hosts.h_chk [Hosts.chk_foo; Hosts.chk_bar])).1 !! "bar"
    = Some (rr "bar").
Proof.
  pose proof (chk_denied_omitted (Hosts.h_chk [Hosts.chk_foo; Hosts.chk_bar])
                "service" "chkconfig" "foo" 1%Z "" "sudo: user is not in sudoers"
                eq_refl eq_refl ltac:(vm_compute; reflexivity) ltac:(vm_compute; reflexivity)
                eq_refl ltac:(discriminate) ltac:(vm_compute; reflexivity))
    as (A & _ & _ & D).
  split; [exact A|].
  exact (proj1 (D "bar" "bar is running" "" ltac:(vm_compute; reflexivity)
                  ltac:(vm_compute; reflexivity) eq_refl)).
Defined.

(** C4 as stated fails: when the refused service is the only one, the
    chkconfig scan sets its incomplete flag but the report is [Skipped],
    without the partial-results warning. *)
Lemma chk_denied_counterexample :
  (gather_services_sysv (Hosts.h_chk [Hosts.chk_foo])).1 = Some (∅, true) /\
  (main (Hosts.h_chk [Hosts.chk_foo])).1 = Skipped skipped_msg.
Proof. split; vm_compute; reflexivity. Qed.

(** C1 on a host where sysvinit and systemd both report "foo". *)
Lemma systemd_record_wins_witness :
  exists msg,
    (main Hosts.h_both).1 = Success (Hosts.m_systemd ∪ Hosts.m_sysv) msg /\
    (Hosts.m_systemd ∪ Hosts.m_sysv) !! "foo" = Some Hosts.foo_systemd.
Proof.
  apply (systemd_record_wins Hosts.h_both Hosts.m_sysv Hosts.m_systemd false false "foo"
           Hosts.foo_sysv Hosts.foo_systemd); vm_compute; reflexivity.
Defined.

Lemma sysv_line_spec_witness :
  sysv_line " [ + ]  acpid daemon"
    = Some ("acpid daemon", mk_rec "acpid daemon" (SStr "running") "sysv" None None) /\
  sysv_line " [ - ]  cron"
    = Some ("cron", mk_rec "cron" (SStr "stopped") "sysv" None None) /\
  sysv_line " [ + ]" = None.
Proof.
  split; [|split].
  - apply (proj1 (sysv_line_spec " [ + ]  acpid daemon")); vm_compute; [lia|reflexivity].
  - apply (proj1 (proj2 (sysv_line_spec " [ - ]  cron"))); vm_compute; [lia|reflexivity].
  - apply (proj2 (proj2 (sysv_line_spec " [ + ]"))); vm_compute; lia.
Defined.

Lemma systemd_line_spec_witness :
  systemd_line "sshd.service enabled"
    = Some ("sshd.service", mk_rec "sshd.service" (SStr "running") "systemd" None None) /\
  systemd_line "tmp.mount static"
    = Some ("tmp.mount", mk_rec "tmp.mount" (SStr "stopped") "systemd" None None) /\
  systemd_line "3 unit files listed." = None.
Proof.
  split; [|split].
  - apply (proj1 (systemd_line_spec "sshd.service enabled")); vm_compute; reflexivity.
  - apply (proj1 (proj2 (systemd_line_spec "tmp.mount static"))); vm_compute;
      [reflexivity|discriminate].
  - apply (proj2 (proj2 (systemd_line_spec "3 unit files listed."))); vm_compute; discriminate.
Defined.

Lemma chk_states_witness :
  chk_state_ok (opt_map (gather_services_sysv (Hosts.h_chk [Hosts.chk_foo; Hosts.chk_bar])).1).
Proof. apply (chk_states _ "chkconfig"). reflexivity. Defined.

End Claims.

(* ================================================================== *)
(** ** Further properties of the module *)

Module Extras.
Import Re Scan Facts.

#[local] Arguments bind {A B} m f : simpl never.

(** [services[k] = v] over the lines is a left-biased union with the
    dict it starts from. *)
Lemma store_lines_cons f line rest (m : gmap string svc_rec) :
  store_lines f (line :: rest) m =
  store_lines f rest (match f line with Some (k, v) => <[k:=v]> m | None => m end).
Proof. reflexivity. Qed.

Lemma store_lines_union f lines (m : gmap string svc_rec) :
  store_lines f lines m = store_lines f lines ∅ ∪ m.
Proof.
  revert m; induction lines as [|line rest IH]; intros m.
  - cbn. by rewrite (left_id_L ∅ (∪)).
  - rewrite !store_lines_cons, IH, (IH (match f line with Some (k, v) => <[k:=v]> ∅ | None => ∅ end)).
    rewrite <-(assoc_L (∪)). f_equal.
    destruct (f line) as [[k v]|].
    + rewrite !insert_union_singleton_l, (right_id_L ∅ (∪)). reflexivity.
    + by rewrite (left_id_L ∅ (∪)).
Qed.

Lemma store_lines_untouched f lines (m : gmap string svc_rec) k :
  (forall l v, In l lines -> f l <> Some (k, v)) -> store_lines f lines m !! k = m !! k.
Proof.
  revert m; induction lines as [|line rest IH]; intros m H; [reflexivity|].
  rewrite store_lines_cons, IH by (intros l v Hl; apply H; right; exact Hl).
  destruct (f line) as [[k' v']|] eqn:E; [|reflexivity].
  rewrite lookup_insert_ne; [reflexivity|].
  intros ->. apply (H line v'); [left; reflexivity|exact E].
Qed.

(** The loops of lines 59-65, 72-81 and 161-166: the record stored under a
    key is the one of the last line yielding that key; a key that no line
    yields keeps the value it had before the loop. *)
Theorem store_lines_last_wins f (lines : list string) (m : gmap string svc_rec) (k : string) :
  ((forall l v, In l lines -> f l <> Some (k, v)) -> store_lines f lines m !! k = m !! k) /\
  (forall (l1 : list string) (line : string) (l2 : list string) (v : svc_rec),
     lines = (l1 ++ line :: l2)%list -> f line = Some (k, v) ->
     (forall l v', In l l2 -> f l <> Some (k, v')) -> store_lines f lines m !! k = Some v).
Proof.
  split; [apply store_lines_untouched|].
  intros l1 line l2 v -> Hf Hl2.
  assert (E : store_lines f (l1 ++ line :: l2) m = store_lines f (line :: l2) (store_lines f l1 m))
    by apply fold_left_app.
  rewrite E, store_lines_cons, Hf, store_lines_untouched by exact Hl2. apply lookup_insert_eq.
Qed.

Lemma store_lines_last_wins_witness :
  store_lines sysv_line [" [ + ]  foo"; " [ + ]  bar"; " [ - ]  foo"] ∅ !! "foo"
    = Some (mk_rec "foo" (SStr "stopped") "sysv" None None) /\
  store_lines sysv_line [" [ + ]  foo"; " [ + ]  bar"; " [ - ]  foo"] ∅ !! "baz" = None.
Proof.
  pose proof (store_lines_last_wins sysv_line [" [ + ]  foo"; " [ + ]  bar"; " [ - ]  foo"]
                ∅ "foo") as [_ B].
  pose proof (store_lines_last_wins sysv_line [" [ + ]  foo"; " [ + ]  bar"; " [ - ]  foo"]
                ∅ "baz") as [A _].
  split.
  - apply (B [" [ + ]  foo"; " [ + ]  bar"] " [ - ]  foo" []); [reflexivity|vm_compute; reflexivity|].
    intros l v' [].
  - apply A. intros l v Hin. vm_compute in Hin.
    destruct Hin as [<-|[<-|[<-|[]]]]; vm_compute; discriminate.
Defined.

(** On a host with service and initctl binaries and no chkconfig, the map
    of [ServiceScanService] is the Upstart map over the sysvinit map: a job
    Upstart lists replaces the sysvinit record of the same name. *)
Theorem upstart_over_sysv (h : host) (sp ip : string) :
  bin_service h = Some sp -> bin_initctl h = Some ip -> bin_chkconfig h = None ->
  (gather_services_sysv h).1 =
    Some (store_lines upstart_line (Py.split_nl (Py.remove_char Py.cr (run h (ip ++ " list")).1.2)) ∅
          ∪ store_lines sysv_line (Py.split_nl (run h (sysv_cmd sp)).1.2) ∅, false).
Proof.
  intros Hs Hi Hc. rewrite gather_sysv_fst, Hs, Hi, Hc.
  rewrite upstart_scan_fst, sysv_scan_fst, store_lines_union. reflexivity.
Qed.

Lemma upstart_over_sysv_witness :
  (gather_services_sysv Hosts.h_sysv_upstart).1 =
    Some (store_lines upstart_line
            (Py.split_nl (Py.remove_char Py.cr (run Hosts.h_sysv_upstart ("initctl" ++ " list")).1.2)) ∅
          ∪ store_lines sysv_line (Py.split_nl (run Hosts.h_sysv_upstart (sysv_cmd "service")).1.2) ∅,
          false).
Proof. apply upstart_over_sysv; reflexivity. Defined.

(** [ServiceScanService] is unavailable exactly when no service binary is
    found, and then it runs no command. *)
Theorem sysv_unavailable (h : host) :
  ((gather_services_sysv h).1 = None <-> bin_service h = None) /\
  (bin_service h = None -> (gather_services_sysv h).2 = []).
Proof.
  split.
  - rewrite gather_sysv_fst. destruct (bin_service h); [|tauto].
    split; [|discriminate]. destruct (bin_initctl h), (bin_chkconfig h); discriminate.
  - intros Hs. rewrite gather_log, Hs. reflexivity.
Qed.

Lemma sysv_unavailable_witness :
  (gather_services_sysv Hosts.h_upstart_only).2 = [].
Proof. apply (proj2 (sysv_unavailable Hosts.h_upstart_only)). reflexivity. Defined.

(** [SystemctlScanService] is unavailable exactly when /proc/1/comm has no
    line containing "systemd" (or cannot be read) or no systemctl is found;
    it then runs no command, and otherwise runs the one listing command. *)
Theorem systemd_availability (h : host) :
  ((gather_services_systemd h).1 = None <->
     systemd_enabled h = false \/ bin_systemctl h = None) /\
  (gather_services_systemd h).2 =
    match systemd_enabled h, bin_systemctl h with
    | true, Some p => [(SSystemctl, systemd_cmd p)]
    | _, _ => []
    end /\
  (proc1_comm h = None -> systemd_enabled h = false).
Proof.
  split; [|split].
  - rewrite gather_systemd_fst.
    destruct (systemd_enabled h), (bin_systemctl h); intuition congruence.
  - unfold gather_services_systemd.
    destruct (systemd_enabled h); [|reflexivity]. cbn.
    destruct (bin_systemctl h) as [p|]; [|reflexivity].
    rewrite bind_snd. cbn [run_command fst snd].
    destruct (run h (systemd_cmd p)) as [[? ?] ?]. reflexivity.
  - intros Hc. unfold systemd_enabled. by rewrite Hc.
Qed.

(** [main] runs the commands of [ServiceScanService] first, then those of
    [SystemctlScanService], and its services are exactly the keys of the
    two scanners' maps. *)
Theorem main_composition (h : host) :
  (main h).2 = ((gather_services_sysv h).2 ++ (gather_services_systemd h).2)%list /\
  dom (services_of (main h).1) =
    dom (opt_map (gather_services_sysv h).1) ∪ dom (opt_map (gather_services_systemd h).1).
Proof.
  split.
  - unfold main. rewrite bind_snd. cbv beta. rewrite bind_snd. cbn [ret snd].
    by rewrite app_nil_r.
  - rewrite main_services, dom_union_L. set_solver.
Qed.

(** The chkconfig scan probes only services listed with runlevel 3 "on":
    every status command it runs is [<service> <name> status] for the name
    of such a listing line. *)
Theorem chk_probes_only_rl3_on (h : host) (sp : string) (lines : list string)
    (m : gmap string svc_rec) (w : bool) (c : string) :
  In (SChkProbe, c) (chk_loop h sp lines m w).2 ->
  exists line e, In line lines /\ rmatch chk_re line = Some e /\
    grp e "rl3" = "on" /\ c = probe_cmd sp (grp e "service").
Proof.
  revert m w; induction lines as [|line rest IH]; intros m w H; cbn [chk_loop] in H.
  { destruct H. }
  destruct (rmatch chk_re line) as [e|] eqn:Em.
  2:{ destruct (IH _ _ H) as (l & e' & ? & ?); exists l, e'; split; [right|]; tauto. }
  cbn zeta in H. destruct (String.eqb_spec (grp e "rl3") "on") as [Hon|Hoff].
  - rewrite bind_snd in H. cbn [run_command fst snd app] in H.
    destruct H as [H|H].
    + injection H as <-. exists line, e. repeat split; auto. left; reflexivity.
    + destruct (run h (probe_cmd sp (grp e "service"))) as [[rc o] err].
      assert (Hr : exists m' w', In (SChkProbe, c) (chk_loop h sp rest m' w').2).
      { destruct rc; [| destruct (permission_denied err) ..]; eexists _, _; exact H. }
      destruct Hr as (m' & w' & Hr).
      destruct (IH _ _ Hr) as (l & e' & ? & ?); exists l, e'; split; [right|]; tauto.
  - destruct (IH _ _ H) as (l & e' & ? & ?); exists l, e'; split; [right|]; tauto.
Qed.

Lemma chk_probes_only_rl3_on_witness :
  exists line e,
    In line [Hosts.chk_baz; Hosts.chk_bar] /\ rmatch chk_re line = Some e /\
    grp e "rl3" = "on" /\ "service bar status" = probe_cmd "service" (grp e "service").
Proof.
  apply (chk_probes_only_rl3_on (Hosts.h_chk [Hosts.chk_baz; Hosts.chk_bar]) "service"
           [Hosts.chk_baz; Hosts.chk_bar] ∅ false).
  vm_compute. left; reflexivity.
Defined.

Lemma chk_loop_stopped_aux h sp lines m w s :
  forallb (stops_for h sp s) lines = true ->
  existsb (names_b s) lines = true \/ m !! s = Some (rs s) ->
  (chk_loop h sp lines m w).1.1 !! s = Some (rs s).
Proof.
  revert m w. induction lines as [|line rest IH]; intros m w Hall Hm; cbn [chk_loop].
  { destruct Hm as [Hm|Hm]; [discriminate|exact Hm]. }
  cbn [existsb forallb] in Hm, Hall. apply andb_prop in Hall as [H1 Hall].
  unfold names_b at 1 in Hm. unfold stops_for in H1.
  destruct (rmatch chk_re line) as [e|]; [|apply IH; auto].
  cbn zeta. destruct (String.eqb_spec (grp e "service") s) as [Hn|Hn].
  - cbn [negb orb] in H1.
    destruct (String.eqb (grp e "rl3") "on") eqn:Er; cbn [negb orb] in H1.
    + rewrite bind_fst. cbn [run_command fst]. rewrite Hn.
      destruct (run h (probe_cmd sp s)) as [[rc o] err]. cbn.
      destruct rc; cbn [Z.eqb negb andb] in H1; [discriminate| |];
        (destruct (permission_denied err); [discriminate|]);
        apply IH; auto; right; rewrite <-Hn; apply lookup_insert_eq.
    + apply IH; auto. right. rewrite <-Hn. apply lookup_insert_eq.
  - cbn [orb] in Hm. chk_cases e; apply IH; auto;
      (destruct Hm as [Hm|Hm]; [left; exact Hm|right; rewrite ?lookup_insert_ne; auto]).
Qed.

(** A service of the chkconfig listing is recorded "stopped" when every
    line naming it has runlevel 3 off or its status probe exits non-zero
    without a permission message. *)
Theorem chk_loop_stopped (h : host) (sp : string) (lines : list string)
    (m : gmap string svc_rec) (w : bool) (s : string) :
  existsb (names_b s) lines = true ->
  forallb (stops_for h sp s) lines = true ->
  (chk_loop h sp lines m w).1.1 !! s = Some (rs s).
Proof. intros Hex Hall. apply chk_loop_stopped_aux; auto. Qed.

Lemma chk_loop_stopped_witness :
  (chk_loop (Hosts.h_chk [Hosts.chk_baz; Hosts.chk_qux]) "service"
     [Hosts.chk_baz; Hosts.chk_qux] ∅ false).1.1 !! "baz" = Some (rs "baz") /\
  (chk_loop (Hosts.h_chk [Hosts.chk_baz; Hosts.chk_qux]) "service"
     [Hosts.chk_baz; Hosts.chk_qux] ∅ false).1.1 !! "qux" = Some (rs "qux").
Proof.
  split; apply chk_loop_stopped; vm_compute; reflexivity.
Defined.

Lemma chk_loop_no_fit h sp lines m w :
  forallb (fun l => negb (fits l)) lines = true -> chk_loop h sp lines m w = ((m, w), []).
Proof.
  revert m w; induction lines as [|line rest IH]; intros m w H; [reflexivity|].
  cbn [forallb] in H. apply andb_prop in H as [H1 H]. unfold fits in H1.
  cbn [chk_loop]. destruct (rmatch chk_re line); [discriminate|]. auto.
Qed.

(** When no line of the (possibly re-run) chkconfig listing fits the
    primary pattern, [ServiceScanService] returns an empty map with the
    flag unset, and runs no status probe. *)
Theorem chk_unrecognised_listing (h : host) (sp cp : string) :
  bin_service h = Some sp -> bin_chkconfig h = Some cp ->
  forallb (fun l => negb (fits l)) (chk_lines h cp) = true ->
  gather_services_sysv h = (Some (∅, false), (chk_listing h cp).2).
Proof.
  intros Hs Hc H. rewrite (chk_gather h sp cp Hs Hc). unfold chk_lines in H.
  rewrite chk_loop_no_fit by exact H. cbn. by rewrite app_nil_r.
Qed.

Lemma chk_unrecognised_listing_witness :
  gather_services_sysv (Hosts.h_chk ["chkconfig: command not found"])
  = (Some (∅, false), (chk_listing (Hosts.h_chk ["chkconfig: command not found"]) "chkconfig").2).
Proof. apply (chk_unrecognised_listing _ "service"); [reflexivity|reflexivity|vm_compute; reflexivity]. Defined.

(** The chkconfig listing is run a single time when a line of it fits the
    primary pattern, or when nothing fits either pattern and stderr does
    not mention "--list"; its stdout is then parsed as it is. *)
Theorem chk_listing_single (h : host) (cp : string) (rc : Z) (out err : string) :
  run h cp = (rc, out, err) ->
  match_any chk_re out = true \/
    (match_any chk_simple_re out = false /\ Py.contains "--list" err = false) ->
  chk_listing h cp = (out, [(SChkBase, cp)]).
Proof.
  intros Hrun H. unfold chk_listing, bind, run_command. rewrite Hrun.
  cbn -[match_any Py.contains chk_re chk_simple_re].
  destruct H as [H|[H1 H2]]; [rewrite H; reflexivity|].
  destruct (match_any chk_re out); [reflexivity|]. rewrite H1, H2. reflexivity.
Qed.

Lemma chk_listing_single_witness :
  chk_listing (Hosts.h_chk [Hosts.chk_foo]) "chkconfig"
  = (Hosts.line_of [Hosts.chk_foo], [(SChkBase, "chkconfig")]).
Proof.
  apply (chk_listing_single _ _ 0%Z _ ""); [reflexivity|left; vm_compute; reflexivity].
Defined.




(** No record of any scanner carries a pid, and a record has a goal
    exactly when its source is "upstart"; so also in the final map. *)
Theorem record_fields (h : host) :
  let ok := map_Forall (fun _ r => pid r = None /\ (goal r <> None <-> source r = "upstart")) in
  ok (opt_map (gather_services_sysv h).1) /\ ok (opt_map (gather_services_systemd h).1) /\
  ok (services_of (main h).1).
Proof.
  intros ok.
  assert (Hu : forall line k v, upstart_line line = Some (k, v) ->
                 pid v = None /\ (goal v <> None <-> source v = "upstart")).
  { intros line k v. unfold upstart_line. destruct (rmatch upstart_re line); [|discriminate].
    intros [= _ <-]; cbn. split; [reflexivity|split; [reflexivity|discriminate]]. }
  assert (Hs : forall line k v, sysv_line line = Some (k, v) ->
                 pid v = None /\ (goal v <> None <-> source v = "upstart")).
  { intros line k v. unfold sysv_line. destruct (_ <? 4)%nat; [discriminate|].
    intros [= _ <-]; cbn. split; [reflexivity|split; [congruence|discriminate]]. }
  assert (Hd : forall line k v, systemd_line line = Some (k, v) ->
                 pid v = None /\ (goal v <> None <-> source v = "upstart")).
  { intros line k v. unfold systemd_line. destruct (negb _); [discriminate|].
    intros [= _ <-]; cbn. split; [reflexivity|split; [congruence|discriminate]]. }
  assert (H1 : ok (opt_map (gather_services_sysv h).1)).
  { unfold ok. rewrite gather_sysv_fst.
    destruct (bin_service h) as [sp|]; [|apply map_Forall_empty].
    destruct (bin_initctl h), (bin_chkconfig h); cbn;
      rewrite ?upstart_scan_fst, ?sysv_scan_fst;
      repeat first
        [ apply chk_loop_forall; [intros n st _; cbn; split; [reflexivity|split; [congruence|discriminate]]|]
        | apply store_lines_forall; [|eauto]
        | apply map_Forall_empty ]. }
  assert (H2 : ok (opt_map (gather_services_systemd h).1)).
  { unfold ok. rewrite gather_systemd_fst.
    destruct (systemd_enabled h); [|apply map_Forall_empty].
    destruct (bin_systemctl h); cbn; [|apply map_Forall_empty].
    apply store_lines_forall; [apply map_Forall_empty|eauto]. }
  split; [exact H1|split; [exact H2|]].
  rewrite main_services. apply map_Forall_union_2; assumption.
Qed.

Lemma tok_ok (cur : list ascii) :
  cur <> [] -> Forall (fun c => Py.is_space c = false) cur ->
  string_of_list_ascii (rev cur) <> "" /\
  Forall (fun c => Py.is_space c = false) (list_ascii_of_string (string_of_list_ascii (rev cur))).
Proof.
  intros Hne Hf. rewrite list_ascii_of_string_of_list_ascii. split.
  - intros E. apply (f_equal list_ascii_of_string) in E.
    rewrite list_ascii_of_string_of_list_ascii in E.
    apply (f_equal (@length ascii)) in E. rewrite length_rev in E.
    destruct cur; [done|discriminate].
  - by apply List.Forall_rev.
Qed.

Lemma split_ws_aux_tokens cur s :
  Forall (fun c => Py.is_space c = false) cur ->
  Forall (fun t => t <> "" /\ Forall (fun c => Py.is_space c = false) (list_ascii_of_string t))
    (Py.split_ws_aux cur s).
Proof.
  revert cur; induction s as [|c t IH]; intros cur Hc; cbn.
  - destruct cur as [|a l]; [constructor|].
    constructor; [apply tok_ok; [discriminate|exact Hc]|constructor].
  - destruct (Py.is_space c) eqn:Hs.
    + destruct cur as [|a l]; [apply IH; constructor|].
      constructor; [apply tok_ok; [discriminate|exact Hc]|apply IH; constructor].
    + apply IH. by constructor.
Qed.

Lemma line_names (line k : string) (v : svc_rec) :
  (systemd_line line = Some (k, v) ->
     k <> "" /\ Forall (fun c => Py.is_space c = false) (list_ascii_of_string k)) /\
  (sysv_line line = Some (k, v) -> k <> "").
Proof.
  pose proof (split_ws_aux_tokens [] line (List.Forall_nil _)) as Ht.
  fold (Py.split_ws line) in Ht. rewrite List.Forall_forall in Ht.
  split.
  - unfold systemd_line. destruct (negb _) eqn:E; [discriminate|].
    intros [= <- _]. apply negb_false_iff, Nat.eqb_eq in E.
    apply Ht, nth_In. lia.
  - unfold sysv_line. destruct (_ <? 4)%nat eqn:E; [discriminate|].
    intros [= <- _]. apply Nat.ltb_ge in E.
    destruct (skipn 3 (Py.split_ws line)) as [|t rest] eqn:Es.
    { apply (f_equal (@length string)) in Es. rewrite length_skipn in Es. cbn in Es. lia. }
    assert (Hin : In t (Py.split_ws line)).
    { rewrite <- (firstn_skipn 3 (Py.split_ws line)), Es. apply in_or_app. right; left; reflexivity. }
    apply Ht in Hin as [Hne _].
    destruct rest; cbn; [exact Hne|]. destruct t; [done|discriminate].
Qed.

(** Names come from the tokens of [line.split()], which are non-empty and
    hold no whitespace: every service name of the systemd scan is a
    non-empty string without whitespace, and every name of the sysvinit
    [--status-all] scan is non-empty. *)
Theorem scanned_names (h : host) (sp : string) :
  map_Forall (fun k _ => k <> "" /\ Forall (fun c => Py.is_space c = false) (list_ascii_of_string k))
    (opt_map (gather_services_systemd h).1) /\
  map_Forall (fun k _ => k <> "") (sysv_scan h sp ∅).1.
Proof.
  split.
  - rewrite gather_systemd_fst.
    destruct (systemd_enabled h); [|apply map_Forall_empty].
    destruct (bin_systemctl h); cbn; [|apply map_Forall_empty].
    apply store_lines_forall; [apply map_Forall_empty|].
    intros line k v E. exact (proj1 (line_names line k v) E).
  - rewrite sysv_scan_fst. apply store_lines_forall; [apply map_Forall_empty|].
    intros line k v E. exact (proj2 (line_names line k v) E).
Qed.

End Extras.
